(** * Invoice / bank-transaction reconciliation ([main.py], [/match])

    A shallow embedding of [match_invoices_to_bank] and of the values it
    manipulates, followed by the properties of the matching engine.

    Modelling conventions.
    - A Python [float] is a [pyfloat]: a finite value carried as the exact
      rational it denotes, an infinity, or NaN.  Equality of dictionary
      keys is Python's [==] ([float_eqb]); NaN is equal to nothing,
      itself included.
    - [round(x, 2)] rounds the exact value to the nearest multiple of
      1/100, ties to the even multiple; infinities and NaN round to
      themselves.
    - Documents returned by the store are dictionaries read with [.get];
      a field is an [option] ([None] when the key is absent).
    - [defaultdict(list)] keyed by floats is an insertion-ordered
      association list looked up with [float_eqb]; every key is a freshly
      built float, so identity never short-cuts the comparison.
    - [datetime.fromisoformat] is a parameter of the engine: the results
      hold for whatever strings it accepts. *)

From Stdlib Require Import ZArith QArith Qround List String Ascii Bool Lia.
From Stdlib Require Import DecimalString Permutation.
Import ListNotations.

Local Open Scope Z_scope.

(* ------------------------------------------------------------------ *)
(** ** Python floats and [round(x, 2)] *)

Inductive pyfloat : Type :=
| Finite (q : Q)
| Infinity (negative : bool)
| NaN.

(** Nearest integer, ties to even. *)
Definition round_half_even (q : Q) : Z :=
  let n := Qnum q in
  let d := Zpos (Qden q) in
  let f := n / d in
  let r := n mod d in
  match 2 * r ?= d with
  | Lt => f
  | Gt => f + 1
  | Eq => if Z.even f then f else f + 1
  end.

(** [round(q, 2)] on a finite value. *)
Definition round2Q (q : Q) : Q :=
  Qred (round_half_even (q * 100) # 100).

(** [round(x, 2)]. *)
Definition round2 (x : pyfloat) : pyfloat :=
  match x with
  | Finite q => Finite (round2Q q)
  | Infinity s => Infinity s
  | NaN => NaN
  end.

(** Python's [==] on floats. *)
Definition float_eqb (a b : pyfloat) : bool :=
  match a, b with
  | Finite p, Finite q => Qeq_bool p q
  | Infinity s, Infinity s' => Bool.eqb s s'
  | _, _ => false
  end.

(** Python's [>] on finite scores. *)
Definition Qgt_bool (a b : Q) : bool := negb (Qle_bool a b).

(* ------------------------------------------------------------------ *)
(** ** Dates *)

Record date : Type := mk_date {
  year : Z;
  month : Z;
  day : Z
}.

(** A [datetime.datetime]; the engine only ever calls [.date()] on it. *)
Record datetime : Type := mk_datetime {
  dt_date : date;
  dt_microseconds : Z
}.

Definition is_leap (y : Z) : bool :=
  (y mod 4 =? 0) && (negb (y mod 100 =? 0) || (y mod 400 =? 0)).

Definition days_before_year (y : Z) : Z :=
  let y' := y - 1 in
  y' * 365 + y' / 4 - y' / 100 + y' / 400.

Definition DAYS_BEFORE_MONTH (m : Z) : Z :=
  match m with
  | 1 => 0 | 2 => 31 | 3 => 59 | 4 => 90 | 5 => 120 | 6 => 151
  | 7 => 181 | 8 => 212 | 9 => 243 | 10 => 273 | 11 => 304 | 12 => 334
  | _ => 0
  end.

Definition days_before_month (y m : Z) : Z :=
  DAYS_BEFORE_MONTH m + (if (2 <? m) && is_leap y then 1 else 0).

(** [date.toordinal()]. *)
Definition toordinal (d : date) : Z :=
  days_before_year (year d) + days_before_month (year d) (month d) + day d.

(** [abs((a - b).days)] for two dates. *)
Definition abs_days (a b : date) : Z :=
  Z.abs (toordinal a - toordinal b).

(** [str(n)] for an integer, as an f-string prints it. *)
Definition str_int (n : Z) : string :=
  NilZero.string_of_int (Z.to_int n).

(* ------------------------------------------------------------------ *)
(** ** Documents and results *)

(** A date-valued field as the store hands it back: absent (or [None]),
    a string, or a [datetime]. *)
Inductive date_field : Type :=
| NoDate
| DateStr (s : string)
| DateTime (d : datetime).

(** A document of the ["invoice"] collection. *)
Record InvoiceDoc : Type := mk_invoice {
  inv_invoice_number : option string;
  inv_total : option pyfloat;
  inv_invoice_date : date_field
}.

(** A document of the ["banktransaction"] collection. *)
Record TxnDoc : Type := mk_txn {
  txn_id : option string;
  txn_amount : option pyfloat;
  txn_date : date_field
}.

Record MatchResult : Type := mk_result {
  invoice_number : string;
  bank_transaction_id : string;
  confidence : Q;
  reason : option string
}.

(** [float(d.get(key, 0))]. *)
Definition get_float (f : option pyfloat) : pyfloat :=
  match f with
  | Some x => x
  | None => Finite 0
  end.

(** [inv.get("invoice_number", "")]. *)
Definition get_invoice_number (inv : InvoiceDoc) : string :=
  match inv_invoice_number inv with
  | Some s => s
  | None => EmptyString
  end.

(** [str(best.get("_id"))]. *)
Definition str_id (t : TxnDoc) : string :=
  match txn_id t with
  | Some s => s
  | None => "None"%string
  end.

Definition txn_key (t : TxnDoc) : pyfloat := round2 (get_float (txn_amount t)).

Definition inv_key (inv : InvoiceDoc) : pyfloat := round2 (get_float (inv_total inv)).

(** [t] lands in the bucket [inv] looks up: the rounded amount equals
    the rounded total. *)
Definition is_candidate (inv : InvoiceDoc) (t : TxnDoc) : bool :=
  float_eqb (txn_key t) (inv_key inv).

(* ------------------------------------------------------------------ *)
(** ** [defaultdict(list)] keyed by rounded amount *)

Definition amount_dict : Type := list (pyfloat * list TxnDoc).

(** [d[k].append(t)] on a [defaultdict(list)]. *)
Fixpoint dict_append (k : pyfloat) (t : TxnDoc) (d : amount_dict) : amount_dict :=
  match d with
  | [] => [(k, [t])]
  | (k', b) :: d' =>
      if float_eqb k' k then (k', b ++ [t]) :: d'
      else (k', b) :: dict_append k t d'
  end.

(** [d.get(k, [])]. *)
Fixpoint dict_get (k : pyfloat) (d : amount_dict) : list TxnDoc :=
  match d with
  | [] => []
  | (k', b) :: d' => if float_eqb k' k then b else dict_get k d'
  end.

(** The preprocessing loop over [txns]. *)
Definition build_txns_by_amount (txns : list TxnDoc) : amount_dict :=
  fold_left (fun d t => dict_append (txn_key t) t d) txns [].

(* ------------------------------------------------------------------ *)
(** ** The matching engine *)

Section Engine.

Variable fromisoformat : string -> option datetime.

(** The [isinstance(x, str)] / [try: fromisoformat] block. *)
Definition parse_date_field (f : date_field) : option datetime :=
  match f with
  | NoDate => None
  | DateStr s => fromisoformat s
  | DateTime d => Some d
  end.

(** Score and reason computed for one candidate. *)
Definition score_candidate (inv_date : option datetime) (t : TxnDoc) : Q * string :=
  let t_date := parse_date_field (txn_date t) in
  let score := 0.6%Q in
  match inv_date, t_date with
  | Some i, Some d =>
      let days := abs_days (dt_date d) (dt_date i) in
      if days <=? 7
      then ((score + 0.4)%Q,
            ("Amount matches and dates within " ++ str_int days ++ " days")%string)
      else (score,
            ("Amount matches but dates " ++ str_int days ++ " days apart")%string)
  | _, _ => (score, "Amount matches"%string)
  end.

(** The variables of the candidate loop. *)
Record loop_state : Type := mk_state {
  best : option TxnDoc;
  best_score : Q;
  cur_reason : option string
}.

Definition init_state : loop_state :=
  {| best := None; best_score := (-1)%Q; cur_reason := None |}.

(** One iteration of [for t in candidates]. *)
Definition loop_body (inv_date : option datetime) (st : loop_state) (t : TxnDoc)
  : loop_state :=
  let (score, r) := score_candidate inv_date t in
  if Qgt_bool score (best_score st)
  then {| best := Some t; best_score := score; cur_reason := Some r |}
  else {| best := best st; best_score := best_score st; cur_reason := Some r |}.

Definition run_candidates (inv_date : option datetime) (candidates : list TxnDoc)
  : loop_state :=
  fold_left (loop_body inv_date) candidates init_state.

(** [st] holds a first best among [cs]: the selected candidate scores
    strictly above everything before it and at least everything after. *)
Definition first_best (inv_date : option datetime) (cs : list TxnDoc)
  (st : loop_state) : Prop :=
  exists pre t post,
    cs = pre ++ t :: post /\
    best st = Some t /\
    best_score st = fst (score_candidate inv_date t) /\
    (forall t', In t' pre ->
       (fst (score_candidate inv_date t') < fst (score_candidate inv_date t))%Q) /\
    (forall t', In t' post ->
       (fst (score_candidate inv_date t') <= fst (score_candidate inv_date t))%Q).

(** The state reached for one invoice once its candidates are scanned. *)
Definition scan_invoice (d : amount_dict) (inv : InvoiceDoc) : loop_state :=
  run_candidates (parse_date_field (inv_invoice_date inv)) (dict_get (inv_key inv) d).

(** Body of [for inv in invoices]: the results list after this invoice. *)
Definition invoice_step (d : amount_dict) (results : list MatchResult)
  (inv : InvoiceDoc) : list MatchResult :=
  let st := scan_invoice d inv in
  match best st with
  | Some b =>
      results ++ [ {| invoice_number := get_invoice_number inv;
                      bank_transaction_id := str_id b;
                      confidence := round2Q (best_score st);
                      reason := cur_reason st |} ]
  | None => results
  end.

(** The pure part of [match_invoices_to_bank]: from the two sequences to
    the list [results]. *)
Definition reconcile (invoices : list InvoiceDoc) (txns : list TxnDoc)
  : list MatchResult :=
  let txns_by_amount := build_txns_by_amount txns in
  fold_left (invoice_step txns_by_amount) invoices [].

End Engine.

(* ------------------------------------------------------------------ *)
(** ** The endpoint: reads, engine, writes, and the [try]/[except] *)

Record HTTPException : Type := mk_http {
  status_code : Z;
  detail : string
}.

(** Computations over a store that may raise; an exception carries
    [str(e)]. *)
Definition Eff (Store A : Type) : Type := Store -> Store * (string + A).

Definition ret {Store A : Type} (a : A) : Eff Store A :=
  fun s => (s, inr a).

Definition bind {Store A B : Type} (c : Eff Store A) (k : A -> Eff Store B)
  : Eff Store B :=
  fun s =>
    match c s with
    | (s', inl e) => (s', inl e)
    | (s', inr a) => k a s'
    end.

Notation "x <- c ;; k" := (bind c (fun x => k))
  (at level 61, c at next level, right associativity).

(** [try: ... except Exception as e: raise HTTPException(500, str(e))]. *)
Definition try_except_500 {Store A : Type} (c : Eff Store A)
  : Store -> Store * (HTTPException + A) :=
  fun s =>
    match c s with
    | (s', inl e) => (s', inl {| status_code := 500; detail := e |})
    | (s', inr a) => (s', inr a)
    end.

Section Endpoint.

Variable fromisoformat : string -> option datetime.

(** The record store behind [get_documents] and [create_document]. *)
Variable Store : Type.
Variable get_invoices : nat -> Store -> string + list InvoiceDoc.
Variable get_txns : nat -> Store -> string + list TxnDoc.
Variable create_document : string -> MatchResult -> Store -> Store * (string + string).

(** A read leaves the store as it is. *)
Definition read {A : Type} (g : Store -> string + A) : Eff Store A :=
  fun s => (s, g s).

(** [for r in results: create_document("match", {...})]. *)
Fixpoint store_matches (results : list MatchResult) : Eff Store unit :=
  match results with
  | [] => ret tt
  | r :: rest =>
      _ <- create_document "match" r ;;
      store_matches rest
  end.

Definition match_invoices_to_bank : Store -> Store * (HTTPException + list MatchResult) :=
  try_except_500 (
    invoices <- read (get_invoices 500) ;;
    txns <- read (get_txns 1000) ;;
    let results := reconcile fromisoformat invoices txns in
    _ <- store_matches results ;;
    ret results).

End Endpoint.

(* ------------------------------------------------------------------ *)
(** ** A parser for the calendar-date form [YYYY-MM-DD]

    The fragment of [datetime.fromisoformat] the boundary declares; used
    to run the engine on the scenarios of the specification. *)

Definition digit_of (c : ascii) : option Z :=
  let n := Z.of_nat (nat_of_ascii c) in
  if (48 <=? n) && (n <=? 57) then Some (n - 48) else None.

Definition days_in_month (y m : Z) : Z :=
  match m with
  | 2 => if is_leap y then 29 else 28
  | 4 | 6 | 9 | 11 => 30
  | _ => 31
  end.

Definition check_date (y m d : Z) : option datetime :=
  if (1 <=? y) && (1 <=? m) && (m <=? 12) && (1 <=? d) && (d <=? days_in_month y m)
  then Some {| dt_date := {| year := y; month := m; day := d |};
               dt_microseconds := 0 |}
  else None.

Definition iso_calendar_date (s : string) : option datetime :=
  match s with
  | String y1 (String y2 (String y3 (String y4 (String "-"
      (String m1 (String m2 (String "-"
        (String d1 (String d2 EmptyString))))))))) =>
      match digit_of y1, digit_of y2, digit_of y3, digit_of y4,
            digit_of m1, digit_of m2, digit_of d1, digit_of d2 with
      | Some a, Some b, Some c, Some d, Some e, Some f, Some g, Some h =>
          check_date (1000 * a + 100 * b + 10 * c + d) (10 * e + f) (10 * g + h)
      | _, _, _, _, _, _, _, _ => None
      end
  | _ => None
  end.

(* ------------------------------------------------------------------ *)
(** ** Scenario data *)

Definition scenario_invoice : InvoiceDoc :=
  {| inv_invoice_number := Some "INV-1"%string;
     inv_total := Some (Finite 100);
     inv_invoice_date := DateStr "2024-01-01" |}.

Definition txn_near : TxnDoc :=
  {| txn_id := Some "65a1f0c2e4b0a1b2c3d4e5f6"%string;
     txn_amount := Some (Finite 100);
     txn_date := DateStr "2024-01-03" |}.

Definition txn_far : TxnDoc :=
  {| txn_id := Some "65a1f0c2e4b0a1b2c3d4e5f7"%string;
     txn_amount := Some (Finite 100);
     txn_date := DateStr "2024-02-01" |}.

Definition txn_near_again : TxnDoc :=
  {| txn_id := Some "65a1f0c2e4b0a1b2c3d4e5f9"%string;
     txn_amount := Some (Finite 100);
     txn_date := DateStr "2023-12-30" |}.

Definition txn_other_amount : TxnDoc :=
  {| txn_id := Some "65a1f0c2e4b0a1b2c3d4e5f8"%string;
     txn_amount := Some (Finite 50);
     txn_date := DateStr "2024-01-01" |}.

(* ------------------------------------------------------------------ *)
(** ** An in-memory record store

    A store for running the endpoint: it holds the three collections
    and accepts a match only while it holds fewer than [capacity] of
    them, so that a write can fail part-way through a run. *)

Record mem_store : Type := mk_mem {
  stored_invoices : list InvoiceDoc;
  stored_txns : list TxnDoc;
  stored_matches : list MatchResult
}.

Definition mem_get_invoices (limit : nat) (s : mem_store)
  : string + list InvoiceDoc :=
  inr (firstn limit (stored_invoices s)).

Definition mem_get_txns (limit : nat) (s : mem_store)
  : string + list TxnDoc :=
  inr (firstn limit (stored_txns s)).

Definition mem_create_document (capacity : nat) (collection : string)
  (r : MatchResult) (s : mem_store) : mem_store * (string + string) :=
  if (List.length (stored_matches s) <? capacity)%nat
  then ({| stored_invoices := stored_invoices s;
           stored_txns := stored_txns s;
           stored_matches := stored_matches s ++ [r] |},
        inr (str_int (Z.of_nat (List.length (stored_matches s)))))
  else (s, inl "store unavailable"%string).

Definition mem_match_invoices_to_bank (capacity : nat) :=
  match_invoices_to_bank iso_calendar_date mem_store
    mem_get_invoices mem_get_txns (mem_create_document capacity).

Definition scenario_store : mem_store :=
  {| stored_invoices := [scenario_invoice;
                         {| inv_invoice_number := Some "INV-2"%string;
                            inv_total := Some (Finite 50);
                            inv_invoice_date := NoDate |}];
     stored_txns := [txn_near; txn_other_amount];
     stored_matches := [] |}.

(** The proposal of [scenario_invoice] against [txn_near]. *)
Definition scenario_proposal : MatchResult :=
  {| invoice_number := "INV-1"%string;
     bank_transaction_id := str_id txn_near;
     confidence := 1;
     reason := Some "Amount matches and dates within 2 days"%string |}.

(* ------------------------------------------------------------------ *)
(** ** The other endpoints of [main.py]

    Stored documents are dictionaries from field names to values of any
    BSON type; the handlers only move them around and turn the [_id]
    into a string, so the values stay abstract: [py_str] is [str(v)]
    and [of_str] makes a value of a Python string. *)

Record created_response : Type := mk_created {
  id : string;
  status : string
}.

Section StoreEndpoints.

Variable Value : Type.
Variable py_str : Value -> string.
Variable of_str : string -> Value.

(** A dictionary in insertion order. *)
Definition document : Type := list (string * Value).

(** [{k: (str(v) if k == "_id" else v) for k, v in d.items()}]. *)
Definition stringify_id (d : document) : document :=
  map (fun kv => (fst kv,
                  if String.eqb (fst kv) "_id" then of_str (py_str (snd kv))
                  else snd kv)) d.

Variable Store : Type.
Variable Model : Type.
Variable get_documents : string -> nat -> Store -> string + list document.
Variable create_document : string -> Model -> Store -> Store * (string + string).

(** [POST /invoices]. *)
Definition create_invoice (invoice : Model)
  : Store -> Store * (HTTPException + created_response) :=
  try_except_500 (
    inserted_id <- create_document "invoice" invoice ;;
    ret {| id := inserted_id; status := "created" |}).

(** [GET /invoices]. *)
Definition list_invoices : Store -> Store * (HTTPException + list document) :=
  try_except_500 (
    docs <- read Store (get_documents "invoice" 100) ;;
    ret (map stringify_id docs)).

(** [POST /bank-transactions]. *)
Definition create_bank_txn (txn : Model)
  : Store -> Store * (HTTPException + created_response) :=
  try_except_500 (
    inserted_id <- create_document "banktransaction" txn ;;
    ret {| id := inserted_id; status := "created" |}).

(** [GET /bank-transactions]. *)
Definition list_bank_txns : Store -> Store * (HTTPException + list document) :=
  try_except_500 (
    docs <- read Store (get_documents "banktransaction" 200) ;;
    ret (map stringify_id docs)).

End StoreEndpoints.

(** *** [GET /test]

    [db] is the module-level handle ([None] when the database was not
    set up), [getenv] is [os.getenv], and [list_collection_names] either
    raises (with [str(e)]) or returns the names.  [str_prefix n s] is
    the slice [s[:n]] of a Python string.  Nothing outside the inner
    [try] can raise, so the outer handler is never entered. *)

Record test_response : Type := mk_test_response {
  backend : string;
  database : string;
  database_url : option string;
  database_name : option string;
  connection_status : string;
  collections : list string
}.

(** ["✅ Set" if os.getenv(name) else "❌ Not Set"]: an empty value is
    falsy. *)
Definition env_flag (v : option string) : string :=
  match v with
  | Some (String _ _) => "✅ Set"
  | _ => "❌ Not Set"
  end.

Section TestDatabase.

Variable DB : Type.
Variable list_collection_names : DB -> string + list string.
Variable str_prefix : nat -> string -> string.

Definition test_database (db : option DB) (getenv : string -> option string)
  : test_response :=
  let response :=
    {| backend := "✅ Running";
       database := "❌ Not Available";
       database_url := None;
       database_name := None;
       connection_status := "Not Connected";
       collections := [] |} in
  match db with
  | Some d =>
      let response :=
        {| backend := backend response;
           database := "✅ Available";
           database_url := Some (env_flag (getenv "DATABASE_URL"%string));
           database_name := Some (env_flag (getenv "DATABASE_NAME"%string));
           connection_status := connection_status response;
           collections := collections response |} in
      match list_collection_names d with
      | inr names =>
          {| backend := backend response;
             database := "✅ Connected & Working";
             database_url := database_url response;
             database_name := database_name response;
             connection_status := "Connected";
             collections := firstn 10 names |}
      | inl e =>
          {| backend := backend response;
             database := ("⚠️ Connected but Error: " ++ str_prefix 80 e)%string;
             database_url := database_url response;
             database_name := database_name response;
             connection_status := connection_status response;
             collections := collections response |}
      end
  | None =>
      {| backend := backend response;
         database := "⚠️ Available but not initialized";
         database_url := database_url response;
         database_name := database_name response;
         connection_status := connection_status response;
         collections := collections response |}
  end.

End TestDatabase.

(** An environment for running [test_database]: the URL is set, the
    name is set to the empty string. *)
Definition sample_getenv (name : string) : option string :=
  if String.eqb name "DATABASE_URL" then Some "mongodb://localhost:27017"%string
  else if String.eqb name "DATABASE_NAME" then Some ""%string
  else None.

(** A stored invoice as a dictionary, with an [ObjectId] rendered by
    [str] as its hexadecimal form. *)
Inductive sample_value : Type :=
| VObjectId (hex : string)
| VStr (s : string).

Definition sample_str (v : sample_value) : string :=
  match v with
  | VObjectId hex => hex
  | VStr s => s
  end.

Definition sample_document : list (string * sample_value) :=
  [ ("_id"%string, VObjectId "65a1f0c2e4b0a1b2c3d4e5f0");
    ("invoice_number"%string, VStr "INV-1");
    ("vendor_name"%string, VStr "Acme") ].

(* ------------------------------------------------------------------ *)
(** ** Closed forms of what the loops compute

    Vocabulary for the statements below: the candidate loop and the
    invoice loop are compared with these. *)

Section EngineClosedForms.

Variable fromisoformat : string -> option datetime.

(** The candidate earns the date bonus: both dates are there and lie at
    most 7 days apart. *)
Definition within_week (inv_date : option datetime) (t : TxnDoc) : bool :=
  match inv_date, parse_date_field fromisoformat (txn_date t) with
  | Some i, Some d => abs_days (dt_date d) (dt_date i) <=? 7
  | _, _ => false
  end.

(** The first candidate with the date bonus, else the first candidate. *)
Definition first_choice (inv_date : option datetime) (cs : list TxnDoc)
  : option TxnDoc :=
  match find (within_week inv_date) cs with
  | Some t => Some t
  | None => hd_error cs
  end.

(** The score the loop ends with on a list of candidates. *)
Definition final_score (inv_date : option datetime) (cs : list TxnDoc) : Q :=
  if existsb (within_week inv_date) cs then (0.6 + 0.4)%Q
  else match cs with
       | [] => (-1)%Q
       | _ :: _ => 0.6%Q
       end.

End EngineClosedForms.

(** Some transaction of [txns] has the rounded amount of [inv]. *)
Definition has_candidate (txns : list TxnDoc) (inv : InvoiceDoc) : bool :=
  existsb (is_candidate inv) txns.


Definition invoice_without_total : InvoiceDoc :=
  {| inv_invoice_number := Some "INV-3"%string;
     inv_total := None;
     inv_invoice_date := DateStr "2024-03-01" |}.


Definition txn_without_amount : TxnDoc :=
  {| txn_id := Some "65a1f0c2e4b0a1b2c3d4e5fa"%string;
     txn_amount := None;
     txn_date := NoDate |}.

Definition txn_nan : TxnDoc :=
  {| txn_id := Some "65a1f0c2e4b0a1b2c3d4e5fb"%string;
     txn_amount := Some NaN;
     txn_date := DateStr "2024-01-01" |}.

(* ================================================================== *)
(** * Properties *)

(** ** Float equality is a partial equivalence *)

Lemma float_eqb_sym (a b : pyfloat) : float_eqb a b = float_eqb b a.
Proof.
  destruct a as [p | s | ], b as [q | s' | ]; simpl; try reflexivity.
  - apply Qeq_bool_comm.
  - destruct s, s'; reflexivity.
Qed.

Lemma float_eqb_trans (a b c : pyfloat) :
  float_eqb a b = true -> float_eqb b c = true -> float_eqb a c = true.
Proof.
  destruct a as [p | s | ], b as [q | s' | ], c as [r | s'' | ];
    simpl; try discriminate.
  - apply Qeq_bool_trans.
  - destruct s, s', s''; simpl; congruence.
Qed.

(** Two keys equal to a third are equal to each other. *)
Lemma float_eqb_false_l (a b c : pyfloat) :
  float_eqb a b = true -> float_eqb b c = false -> float_eqb a c = false.
Proof.
  intros Hab Hbc. destruct (float_eqb a c) eqn:Hac; [ | reflexivity ].
  rewrite float_eqb_sym in Hab.
  rewrite (float_eqb_trans _ _ _ Hab Hac) in Hbc. discriminate.
Qed.

(** ** The bucket index *)

Lemma dict_get_append (k k' : pyfloat) (t : TxnDoc) (d : amount_dict) :
  dict_get k (dict_append k' t d) =
  if float_eqb k' k then dict_get k d ++ [t] else dict_get k d.
Proof.
  induction d as [ | [k0 b] d IH]; simpl.
  - destruct (float_eqb k' k); reflexivity.
  - destruct (float_eqb k0 k') eqn:E0; simpl.
    + destruct (float_eqb k' k) eqn:E1.
      * rewrite (float_eqb_trans _ _ _ E0 E1). reflexivity.
      * rewrite (float_eqb_false_l _ _ _ E0 E1). reflexivity.
    + destruct (float_eqb k0 k) eqn:E2.
      * destruct (float_eqb k' k) eqn:E1; [ | reflexivity ].
        rewrite float_eqb_sym in E1.
        rewrite (float_eqb_trans _ _ _ E2 E1) in E0. discriminate.
      * exact IH.
Qed.

Lemma dict_get_fold (k : pyfloat) (txns : list TxnDoc) (d : amount_dict) :
  dict_get k (fold_left (fun d t => dict_append (txn_key t) t d) txns d) =
  dict_get k d ++ filter (fun t => float_eqb (txn_key t) k) txns.
Proof.
  revert d. induction txns as [ | t txns IH]; intros d; simpl.
  - now rewrite app_nil_r.
  - rewrite IH, dict_get_append.
    destruct (float_eqb (txn_key t) k); [ | reflexivity ].
    now rewrite <- app_assoc.
Qed.

(** The bucket an invoice looks up holds exactly the transactions whose
    rounded amount equals its rounded total, in input order. *)
Lemma candidates_filter (inv : InvoiceDoc) (txns : list TxnDoc) :
  dict_get (inv_key inv) (build_txns_by_amount txns) =
  filter (is_candidate inv) txns.
Proof.
  unfold build_txns_by_amount. now rewrite dict_get_fold.
Qed.

(** ** The candidate loop *)

Section EngineFacts.

Variable fromisoformat : string -> option datetime.

Local Abbreviation score := (score_candidate fromisoformat).
Local Abbreviation run := (run_candidates fromisoformat).

Lemma Qgt_bool_true (a b : Q) : Qgt_bool a b = true <-> (b < a)%Q.
Proof.
  unfold Qgt_bool. rewrite negb_true_iff.
  destruct (Qle_bool a b) eqn:E.
  - apply Qle_bool_iff in E. split; [ discriminate | ].
    intros H. exfalso. exact (Qlt_not_le _ _ H E).
  - split; [ intros _ | reflexivity ].
    apply Qnot_le_lt. intros H. apply Qle_bool_iff in H. congruence.
Qed.

Lemma Qgt_bool_false (a b : Q) : Qgt_bool a b = false <-> (a <= b)%Q.
Proof.
  unfold Qgt_bool. rewrite negb_false_iff. apply Qle_bool_iff.
Qed.

(** Before rounding a score is the base value or the boosted one. *)
Lemma score_values (i : option datetime) (t : TxnDoc) :
  fst (score i t) = 0.6%Q \/ fst (score i t) = (0.6 + 0.4)%Q.
Proof.
  unfold score_candidate.
  destruct i as [i | ]; [ | now left ].
  destruct (parse_date_field fromisoformat (txn_date t)) as [d | ]; [ | now left ].
  destruct (abs_days (dt_date d) (dt_date i) <=? 7); [ now right | now left ].
Qed.

Lemma score_above_sentinel (i : option datetime) (t : TxnDoc) :
  Qgt_bool (fst (score i t)) (best_score init_state) = true.
Proof.
  destruct (score_values i t) as [-> | ->]; reflexivity.
Qed.

Lemma run_snoc (i : option datetime) (cs : list TxnDoc) (x : TxnDoc) :
  run i (cs ++ [x]) = loop_body fromisoformat i (run i cs) x.
Proof.
  unfold run_candidates. now rewrite fold_left_app.
Qed.

(** The loop leaves in [reason] what it computed for the candidate it
    scanned last, whichever candidate it kept as [best]. *)
Lemma reason_of_last (i : option datetime) (cs : list TxnDoc) (x : TxnDoc) :
  cur_reason (run i (cs ++ [x])) = Some (snd (score i x)).
Proof.
  rewrite run_snoc. unfold loop_body.
  destruct (score i x) as [sc r]; simpl.
  destruct (Qgt_bool sc (best_score (run i cs))); reflexivity.
Qed.

Lemma run_first_best (i : option datetime) (cs : list TxnDoc) :
  cs <> [] -> first_best fromisoformat i cs (run i cs).
Proof.
  induction cs as [ | x l IH] using rev_ind; [ congruence | intros _ ].
  rewrite run_snoc. unfold loop_body.
  destruct (score i x) as [sc r] eqn:Ex.
  assert (Hsc : sc = fst (score i x)) by now rewrite Ex.
  destruct l as [ | y l'].
  - (* first candidate: it beats the sentinel *)
    simpl (run i []). rewrite Hsc, score_above_sentinel.
    exists [], x, []. simpl. repeat split; try tauto.
  - destruct IH as (pre & t & post & Hl & Hb & Hs & Hpre & Hpost);
      [ discriminate | ].
    destruct (Qgt_bool sc (best_score (run i (y :: l')))) eqn:Hgt.
    + apply Qgt_bool_true in Hgt. rewrite Hs in Hgt.
      exists (y :: l'), x, []. simpl. repeat split; try tauto.
      rewrite <- Hsc. intros t' Hin. change (In t' (y :: l')) in Hin.
      rewrite Hl in Hin. apply in_app_or in Hin.
      destruct Hin as [Hin | [<- | Hin]].
      * eapply Qlt_trans; [ apply Hpre, Hin | exact Hgt ].
      * exact Hgt.
      * eapply Qle_lt_trans; [ apply Hpost, Hin | exact Hgt ].
    + apply Qgt_bool_false in Hgt. rewrite Hs in Hgt.
      exists pre, t, (post ++ [x]). simpl. repeat split; try assumption.
      * change (y :: l' ++ [x]) with ((y :: l') ++ [x]).
        rewrite Hl, <- app_assoc. reflexivity.
      * intros t' Hin. apply in_app_or in Hin.
        destruct Hin as [Hin | [<- | []]]; [ now apply Hpost | ].
        now rewrite <- Hsc.
Qed.

Lemma run_best_none (i : option datetime) (cs : list TxnDoc) :
  best (run i cs) = None <-> cs = [].
Proof.
  split.
  - intros H. destruct cs as [ | c cs]; [ reflexivity | ].
    destruct (run_first_best i (c :: cs)) as (? & ? & ? & _ & Hb & _);
      [ discriminate | congruence ].
  - intros ->. reflexivity.
Qed.

End EngineFacts.

(** ** From the invoice loop to per-invoice results *)

Section ReconcileFacts.

Variable fromisoformat : string -> option datetime.

Local Abbreviation score := (score_candidate fromisoformat).
Local Abbreviation engine := (reconcile fromisoformat).
Local Abbreviation scan := (scan_invoice fromisoformat).
Local Abbreviation inv_date_of :=
  (fun inv => parse_date_field fromisoformat (inv_invoice_date inv)).

Lemma scan_filter (inv : InvoiceDoc) (txns : list TxnDoc) :
  scan (build_txns_by_amount txns) inv =
  run_candidates fromisoformat (inv_date_of inv) (filter (is_candidate inv) txns).
Proof.
  unfold scan_invoice. now rewrite candidates_filter.
Qed.

Lemma invoice_step_acc (d : amount_dict) (acc : list MatchResult) (inv : InvoiceDoc) :
  invoice_step fromisoformat d acc inv =
  acc ++ invoice_step fromisoformat d [] inv.
Proof.
  unfold invoice_step. destruct (best (scan d inv)).
  - reflexivity.
  - now rewrite app_nil_r.
Qed.

Lemma fold_invoice_step (d : amount_dict) (invs : list InvoiceDoc)
  (acc : list MatchResult) :
  fold_left (invoice_step fromisoformat d) invs acc =
  acc ++ flat_map (invoice_step fromisoformat d []) invs.
Proof.
  revert acc. induction invs as [ | inv invs IH]; intros acc; simpl.
  - now rewrite app_nil_r.
  - rewrite IH, (invoice_step_acc d acc inv). now rewrite <- app_assoc.
Qed.

Lemma reconcile_single (inv : InvoiceDoc) (txns : list TxnDoc) :
  engine [inv] txns =
  invoice_step fromisoformat (build_txns_by_amount txns) [] inv.
Proof. reflexivity. Qed.

Lemma reconcile_flat_map (invs : list InvoiceDoc) (txns : list TxnDoc) :
  engine invs txns = flat_map (fun inv => engine [inv] txns) invs.
Proof.
  unfold reconcile at 1. rewrite fold_invoice_step. reflexivity.
Qed.

Lemma reconcile_app (invs1 invs2 : list InvoiceDoc) (txns : list TxnDoc) :
  engine (invs1 ++ invs2) txns = engine invs1 txns ++ engine invs2 txns.
Proof.
  rewrite !reconcile_flat_map. apply flat_map_app.
Qed.

(** What a single invoice contributes. *)
Lemma reconcile_single_cases (inv : InvoiceDoc) (txns : list TxnDoc) :
  let st := scan (build_txns_by_amount txns) inv in
  (filter (is_candidate inv) txns = [] /\ best st = None /\ engine [inv] txns = [])
  \/
  (exists t,
      filter (is_candidate inv) txns <> [] /\
      best st = Some t /\
      engine [inv] txns =
      [ {| invoice_number := get_invoice_number inv;
           bank_transaction_id := str_id t;
           confidence := round2Q (best_score st);
           reason := cur_reason st |} ]).
Proof.
  intros st. rewrite reconcile_single. unfold invoice_step. fold st.
  destruct (best st) as [t | ] eqn:Hb.
  - right. exists t. repeat split.
    intros Hnil. unfold st in Hb. rewrite scan_filter, Hnil in Hb. discriminate.
  - left. repeat split.
    unfold st in Hb. rewrite scan_filter in Hb.
    now apply run_best_none in Hb.
Qed.

Lemma filter_nil_iff (inv : InvoiceDoc) (txns : list TxnDoc) :
  filter (is_candidate inv) txns = [] <->
  forall t, In t txns -> is_candidate inv t = false.
Proof.
  split.
  - intros Hnil t Hin. destruct (is_candidate inv t) eqn:E; [ | reflexivity ].
    assert (Hf : In t (filter (is_candidate inv) txns))
      by (apply filter_In; now split).
    rewrite Hnil in Hf. destruct Hf.
  - intros Hall. induction txns as [ | t txns IH]; [ reflexivity | ].
    simpl. rewrite (Hall t (or_introl eq_refl)).
    apply IH. intros t' Hin. apply Hall. now right.
Qed.

(** A split of the filtered list lifts to a split of the list. *)
Lemma filter_split {A : Type} (P : A -> bool) (l pre' post' : list A) (x : A) :
  filter P l = pre' ++ x :: post' ->
  exists pre post,
    l = pre ++ x :: post /\ P x = true /\
    filter P pre = pre' /\ filter P post = post'.
Proof.
  revert pre'. induction l as [ | a l IH]; intros pre' H; simpl in H.
  - destruct pre'; discriminate.
  - destruct (P a) eqn:Pa.
    + destruct pre' as [ | b pre'']; simpl in H.
      * injection H as -> Hrest.
        exists [], l. simpl. repeat split; assumption.
      * injection H as -> Hrest.
        destruct (IH pre'' Hrest) as (pre & post & -> & Px & Hpre & Hpost).
        exists (b :: pre), post. simpl. rewrite Pa, Hpre. repeat split; assumption.
    + destruct (IH pre' H) as (pre & post & -> & Px & Hpre & Hpost).
      exists (a :: pre), post. simpl. rewrite Pa. repeat split; assumption.
Qed.

(** The proposal of an invoice carries the reason computed for the last
    transaction of its bucket. *)
Lemma reason_is_last_candidate (inv : InvoiceDoc) (txns cs : list TxnDoc)
  (x : TxnDoc) :
  filter (is_candidate inv) txns = cs ++ [x] ->
  exists r, engine [inv] txns = [r] /\
            reason r = Some (snd (score (inv_date_of inv) x)).
Proof.
  intros Hf.
  destruct (reconcile_single_cases inv txns) as [(Hnil & _) | (t & _ & _ & Heq)].
  - rewrite Hf in Hnil. destruct cs; discriminate.
  - eexists. split; [ exact Heq | ]. simpl.
    rewrite scan_filter, Hf. apply reason_of_last.
Qed.

End ReconcileFacts.

(* ================================================================== *)
(** * The claims about the engine *)

Section EngineClaims.

Variable fromisoformat : string -> option datetime.

Local Abbreviation score := (score_candidate fromisoformat).
Local Abbreviation engine := (reconcile fromisoformat).
Local Abbreviation scan := (scan_invoice fromisoformat).
Local Abbreviation inv_date_of :=
  (fun inv => parse_date_field fromisoformat (inv_invoice_date inv)).

(** C2 -- amount filter.  Every returned proposal pairs an invoice of
    the input with the transaction the loop kept as [best] for it, and
    that transaction's amount rounded to 2 places equals the invoice's
    total rounded to 2 places. *)
Theorem amount_filter (invs : list InvoiceDoc) (txns : list TxnDoc)
  (r : MatchResult) :
  In r (engine invs txns) ->
  exists inv t,
    In inv invs /\ In t txns /\
    best (scan (build_txns_by_amount txns) inv) = Some t /\
    invoice_number r = get_invoice_number inv /\
    bank_transaction_id r = str_id t /\
    float_eqb (round2 (get_float (txn_amount t)))
              (round2 (get_float (inv_total inv))) = true.
Proof.
  rewrite reconcile_flat_map, in_flat_map.
  intros (inv & Hinv & Hr). exists inv.
  destruct (reconcile_single_cases fromisoformat inv txns)
    as [(_ & _ & Hnil) | (t & Hne & Hb & Heq)].
  - rewrite Hnil in Hr. destruct Hr.
  - rewrite Heq in Hr. destruct Hr as [<- | []].
    exists t. simpl.
    pose proof Hb as Hb'. rewrite scan_filter in Hb'.
    destruct (run_first_best fromisoformat (inv_date_of inv) _ Hne)
      as (pre & t0 & post & Hsplit & Hbest & _).
    assert (t0 = t) by congruence. subst t0.
    assert (Hin : In t (filter (is_candidate inv) txns))
      by (rewrite Hsplit; apply in_elt).
    apply filter_In in Hin. destruct Hin as [Hin Hc].
    repeat split; assumption.
Qed.

(** C4 -- tie-break.  The bucket of an invoice lists its candidates in
    input order, and the transaction kept as [best] sits at a position
    of the input sequence such that every candidate before it scores
    strictly lower and every candidate after it scores at most as much:
    among equal top scores the first in input order is selected. *)
Theorem tie_break_first (inv : InvoiceDoc) (txns : list TxnDoc) (t : TxnDoc) :
  best (scan (build_txns_by_amount txns) inv) = Some t ->
  dict_get (inv_key inv) (build_txns_by_amount txns) =
    filter (is_candidate inv) txns /\
  exists pre post,
    txns = pre ++ t :: post /\
    is_candidate inv t = true /\
    (forall t', In t' pre -> is_candidate inv t' = true ->
       (fst (score (inv_date_of inv) t') < fst (score (inv_date_of inv) t))%Q) /\
    (forall t', In t' post -> is_candidate inv t' = true ->
       (fst (score (inv_date_of inv) t') <= fst (score (inv_date_of inv) t))%Q).
Proof.
  intros Hb. split; [ apply candidates_filter | ].
  rewrite scan_filter in Hb.
  assert (Hne : filter (is_candidate inv) txns <> []).
  { intros Hnil. rewrite Hnil in Hb. discriminate. }
  destruct (run_first_best fromisoformat (inv_date_of inv) _ Hne)
    as (pre' & t0 & post' & Hsplit & Hbest & _ & Hpre & Hpost).
  assert (t0 = t) by congruence. subst t0.
  destruct (filter_split _ _ _ _ _ Hsplit) as (pre & post & -> & Hc & <- & <-).
  exists pre, post. repeat split; try assumption.
  - intros t' Hin Hc'. apply Hpre, filter_In. now split.
  - intros t' Hin Hc'. apply Hpost, filter_In. now split.
Qed.

(** C5 -- one proposal per invoice, in invoice order.  The returned
    list is the concatenation, in input order of the invoices, of what
    each invoice contributes on its own; each contribution has at most
    one proposal, and that proposal bears the invoice's number. *)
Theorem one_per_invoice_in_order (invs : list InvoiceDoc) (txns : list TxnDoc) :
  engine invs txns = flat_map (fun inv => engine [inv] txns) invs /\
  forall inv,
    (List.length (engine [inv] txns) <= 1)%nat /\
    forall r, In r (engine [inv] txns) ->
              invoice_number r = get_invoice_number inv.
Proof.
  split; [ apply reconcile_flat_map | ].
  intros inv.
  destruct (reconcile_single_cases fromisoformat inv txns)
    as [(_ & _ & ->) | (t & _ & _ & ->)]; simpl.
  - split; [ lia | intros r [] ].
  - split; [ lia | intros r [<- | []]; reflexivity ].
Qed.

(** C6 -- confidence.  For every returned proposal the score held by
    the loop before rounding is 0.6 or 1.0, the stored confidence is
    that score rounded to 2 places, and it lies in [0, 1]. *)
Theorem confidence_bound (invs : list InvoiceDoc) (txns : list TxnDoc)
  (r : MatchResult) :
  In r (engine invs txns) ->
  (0 <= confidence r /\ confidence r <= 1)%Q /\
  exists inv,
    In inv invs /\
    invoice_number r = get_invoice_number inv /\
    (best_score (scan (build_txns_by_amount txns) inv) == 0.6 \/
     best_score (scan (build_txns_by_amount txns) inv) == 1)%Q /\
    confidence r = round2Q (best_score (scan (build_txns_by_amount txns) inv)).
Proof.
  rewrite reconcile_flat_map, in_flat_map.
  intros (inv & Hinv & Hr).
  destruct (reconcile_single_cases fromisoformat inv txns)
    as [(_ & _ & Hnil) | (t & Hne & Hb & Heq)].
  - rewrite Hnil in Hr. destruct Hr.
  - rewrite Heq in Hr. destruct Hr as [<- | []]. simpl.
    pose proof (scan_filter fromisoformat inv txns) as Hscan.
    destruct (run_first_best fromisoformat (inv_date_of inv) _ Hne)
      as (pre & t0 & post & _ & _ & Hs & _).
    rewrite <- Hscan in Hs.
    destruct (score_values fromisoformat (inv_date_of inv) t0) as [Hv | Hv];
      rewrite Hv in Hs.
    + split; [ rewrite Hs; split; discriminate | ].
      exists inv. repeat split; try assumption. left. now rewrite Hs.
    + split; [ rewrite Hs; split; discriminate | ].
      exists inv. repeat split; try assumption. right. now rewrite Hs.
Qed.

(** C7 -- no candidate, no proposal.  An invoice whose rounded total
    equals no transaction's rounded amount contributes nothing, and the
    run over a sequence containing it returns what the invoices before
    it and after it contribute. *)
Theorem no_candidate_silent (invs1 invs2 : list InvoiceDoc) (inv : InvoiceDoc)
  (txns : list TxnDoc) :
  (forall t, In t txns ->
     float_eqb (round2 (get_float (txn_amount t)))
               (round2 (get_float (inv_total inv))) = false) ->
  engine [inv] txns = [] /\
  engine (invs1 ++ inv :: invs2) txns = engine invs1 txns ++ engine invs2 txns /\
  engine (invs1 ++ inv :: invs2) txns = engine (invs1 ++ invs2) txns.
Proof.
  intros Hall.
  assert (Hone : engine [inv] txns = []).
  { destruct (reconcile_single_cases fromisoformat inv txns)
      as [(_ & _ & H) | (t & Hne & _)]; [ exact H | ].
    exfalso. apply Hne. apply filter_nil_iff. exact Hall. }
  split; [ exact Hone | ].
  assert (Hsplit : engine (invs1 ++ inv :: invs2) txns =
                   engine invs1 txns ++ engine invs2 txns).
  { change (inv :: invs2) with ([inv] ++ invs2).
    now rewrite !reconcile_app, Hone. }
  split; [ exact Hsplit | ].
  now rewrite Hsplit, reconcile_app.
Qed.

(** C10 -- a proposal exists exactly when the bucket is non-empty.  An
    invoice contributes exactly one proposal when some transaction has
    a rounded amount equal to its rounded total, and none otherwise. *)
Theorem proposal_iff_candidate (inv : InvoiceDoc) (txns : list TxnDoc) :
  ((exists t, In t txns /\
              float_eqb (round2 (get_float (txn_amount t)))
                        (round2 (get_float (inv_total inv))) = true) <->
   exists r, engine [inv] txns = [r]) /\
  ((forall t, In t txns ->
              float_eqb (round2 (get_float (txn_amount t)))
                        (round2 (get_float (inv_total inv))) = false) <->
   engine [inv] txns = []) /\
  (dict_get (inv_key inv) (build_txns_by_amount txns) <> [] <->
   exists r, engine [inv] txns = [r]).
Proof.
  rewrite candidates_filter.
  pose proof (filter_nil_iff inv txns) as Hnil.
  destruct (reconcile_single_cases fromisoformat inv txns)
    as [(Hf & _ & Heq) | (t & Hne & _ & Heq)]; rewrite Heq.
  - repeat split.
    + intros (t & Hin & Hc). apply Hnil in Hin; [ | exact Hf ].
      unfold is_candidate, txn_key, inv_key in Hin. congruence.
    + intros (r & Hr). discriminate.
    + intros H. now apply Hnil.
    + intros H. now rewrite Hf in H.
    + intros (r & Hr). discriminate.
  - repeat split.
    + intros _. eexists. reflexivity.
    + intros _.
      destruct (filter (is_candidate inv) txns) as [ | c cs] eqn:Ef;
        [ congruence | ].
      assert (Hin : In c (filter (is_candidate inv) txns))
        by (rewrite Ef; now left).
      apply filter_In in Hin. exists c. exact Hin.
    + intros H. exfalso. apply Hne. now apply Hnil.
    + discriminate.
    + intros _. eexists. reflexivity.
    + intros _. exact Hne.
Qed.

End EngineClaims.

(** C3 -- scoring.  For an invoice and a candidate: when both dates are
    present and parseable and lie at most 7 whole days apart the score
    is 1.0 and the reason names the days "within"; when they lie more
    than 7 days apart the score is 0.6 and the reason names the days
    "apart"; when either date is missing or unparseable the score is
    0.6 and the reason is "Amount matches".  An invoice of 100.00
    dated 2024-01-01 against one transaction of 100.00 dated 2024-01-03
    yields one proposal, confidence 1.0, "within 2 days". *)
Theorem scoring_rule (fromisoformat : string -> option datetime) :
  (forall (inv : InvoiceDoc) (t : TxnDoc) (i d : datetime),
      parse_date_field fromisoformat (inv_invoice_date inv) = Some i ->
      parse_date_field fromisoformat (txn_date t) = Some d ->
      let days := Z.abs (toordinal (dt_date d) - toordinal (dt_date i)) in
      let sc := score_candidate fromisoformat
                  (parse_date_field fromisoformat (inv_invoice_date inv)) t in
      (days <= 7 ->
       (fst sc == 1)%Q /\
       snd sc = ("Amount matches and dates within " ++ str_int days ++ " days")%string) /\
      (7 < days ->
       (fst sc == 0.6)%Q /\
       snd sc = ("Amount matches but dates " ++ str_int days ++ " days apart")%string)) /\
  (forall (inv : InvoiceDoc) (t : TxnDoc),
      parse_date_field fromisoformat (inv_invoice_date inv) = None \/
      parse_date_field fromisoformat (txn_date t) = None ->
      let sc := score_candidate fromisoformat
                  (parse_date_field fromisoformat (inv_invoice_date inv)) t in
      (fst sc == 0.6)%Q /\ snd sc = "Amount matches"%string) /\
  (forall (id : option string) (i d : datetime),
      fromisoformat "2024-01-01"%string = Some i ->
      dt_date i = {| year := 2024; month := 1; day := 1 |} ->
      fromisoformat "2024-01-03"%string = Some d ->
      dt_date d = {| year := 2024; month := 1; day := 3 |} ->
      reconcile fromisoformat
        [ {| inv_invoice_number := Some "INV-1"%string;
             inv_total := Some (Finite 100);
             inv_invoice_date := DateStr "2024-01-01" |} ]
        [ {| txn_id := id;
             txn_amount := Some (Finite 100);
             txn_date := DateStr "2024-01-03" |} ] =
      [ {| invoice_number := "INV-1"%string;
           bank_transaction_id :=
             str_id {| txn_id := id; txn_amount := Some (Finite 100);
                       txn_date := DateStr "2024-01-03" |};
           confidence := 1;
           reason := Some "Amount matches and dates within 2 days"%string |} ]).
Proof.
  split; [ | split ].
  - intros inv t i d Hi Hd days sc. unfold sc, score_candidate, abs_days.
    rewrite Hi, Hd. fold days. split; intros H.
    + apply Z.leb_le in H. rewrite H. split; reflexivity.
    + apply Z.leb_gt in H. rewrite H. split; reflexivity.
  - intros inv t H sc. unfold sc, score_candidate.
    destruct H as [-> | ->].
    + split; reflexivity.
    + destruct (parse_date_field fromisoformat (inv_invoice_date inv));
        split; reflexivity.
  - intros id i d Hi Hdi Hd Hdd.
    unfold reconcile, build_txns_by_amount, invoice_step, scan_invoice,
      run_candidates, loop_body, score_candidate, abs_days.
    simpl. rewrite Hi, Hd, Hdi, Hdd. reflexivity.
Qed.

(** C1 -- the attached reason.  On an invoice dated 2024-01-01 with two
    transactions of the same amount, the first 2 days away and the
    second 31 days away, the proposal names the first transaction with
    confidence 1.0, yet its reason is the text computed for the second;
    the text computed for the first is a different one. *)
Theorem reason_not_of_selected :
  reconcile iso_calendar_date [scenario_invoice] [txn_near; txn_far] =
    [ {| invoice_number := "INV-1"%string;
         bank_transaction_id := str_id txn_near;
         confidence := 1;
         reason := Some "Amount matches but dates 31 days apart"%string |} ] /\
  best (scan_invoice iso_calendar_date
          (build_txns_by_amount [txn_near; txn_far]) scenario_invoice) =
    Some txn_near /\
  snd (score_candidate iso_calendar_date
         (parse_date_field iso_calendar_date (inv_invoice_date scenario_invoice))
         txn_near) =
    "Amount matches and dates within 2 days"%string /\
  snd (score_candidate iso_calendar_date
         (parse_date_field iso_calendar_date (inv_invoice_date scenario_invoice))
         txn_far) =
    "Amount matches but dates 31 days apart"%string.
Proof.
  repeat split; vm_compute; reflexivity.
Qed.

(* ================================================================== *)
(** * The claims about the endpoint *)

Section EndpointClaims.

Variable fromisoformat : string -> option datetime.
Variable Store : Type.
Variable get_invoices : nat -> Store -> string + list InvoiceDoc.
Variable get_txns : nat -> Store -> string + list TxnDoc.
Variable create_document : string -> MatchResult -> Store -> Store * (string + string).

Local Abbreviation endpoint :=
  (match_invoices_to_bank fromisoformat Store get_invoices get_txns create_document).
Local Abbreviation persist := (store_matches Store create_document).

(** Once both reads succeed, the response is decided by the writes. *)
Lemma endpoint_outcome (s : Store) (invs : list InvoiceDoc) (txns : list TxnDoc) :
  get_invoices 500 s = inr invs ->
  get_txns 1000 s = inr txns ->
  endpoint s =
  match persist (reconcile fromisoformat invs txns) s with
  | (s', inl e) => (s', inl {| status_code := 500; detail := e |})
  | (s', inr _) => (s', inr (reconcile fromisoformat invs txns))
  end.
Proof.
  intros Hi Ht.
  unfold match_invoices_to_bank, try_except_500, bind, read, ret.
  rewrite Hi, Ht.
  destruct (persist (reconcile fromisoformat invs txns) s) as [s' [e | []]];
    reflexivity.
Qed.

(** A failing run of the write loop stops at its first failing write;
    the writes before it went through. *)
Lemma store_matches_failure (rs : list MatchResult) (s s' : Store) (e : string) :
  persist rs s = (s', inl e) ->
  exists done r rest s1,
    rs = done ++ r :: rest /\
    persist done s = (s1, inr tt) /\
    create_document "match" r s1 = (s', inl e).
Proof.
  revert s. induction rs as [ | r rs IH]; intros s H; simpl in H.
  - discriminate.
  - unfold bind in H.
    destruct (create_document "match" r s) as [s1 [e1 | id]] eqn:Ec.
    + injection H as <- <-. exists [], r, rs, s. repeat split. exact Ec.
    + destruct (IH s1 H) as (done & r' & rest & s2 & -> & Hd & Hc).
      exists (r :: done), r', rest, s2. repeat split; try assumption.
      simpl. unfold bind. rewrite Ec. exact Hd.
Qed.

(** C8, as the code has it -- a failing write fails the run.  When a
    write of a computed match fails, the response is the single error
    of status 500 whose detail is the store's message, not the
    proposals; the store is left as the writes before the failing one
    made it. *)
Theorem persist_failure_is_500 (s s' : Store) (invs : list InvoiceDoc)
  (txns : list TxnDoc) (e : string) :
  get_invoices 500 s = inr invs ->
  get_txns 1000 s = inr txns ->
  persist (reconcile fromisoformat invs txns) s = (s', inl e) ->
  endpoint s = (s', inl {| status_code := 500; detail := e |}) /\
  exists done r rest s1,
    reconcile fromisoformat invs txns = done ++ r :: rest /\
    persist done s = (s1, inr tt) /\
    create_document "match" r s1 = (s', inl e).
Proof.
  intros Hi Ht Hp. split.
  - rewrite (endpoint_outcome s invs txns Hi Ht), Hp. reflexivity.
  - now apply store_matches_failure.
Qed.

End EndpointClaims.

(** C8, as stated, fails.  On a store that accepts one match and then
    refuses, the engine computes two proposals, the second write fails,
    and the caller receives the error of status 500 in place of the
    proposals, while the first match stays written. *)
Lemma persist_failure_hides_proposals :
  let computed := reconcile iso_calendar_date
                    (stored_invoices scenario_store) (stored_txns scenario_store) in
  let out := mem_match_invoices_to_bank 1 scenario_store in
  List.length computed = 2%nat /\
  snd out = inl {| status_code := 500; detail := "store unavailable" |} /\
  snd out <> inr computed /\
  stored_matches (fst out) = firstn 1 computed.
Proof.
  vm_compute. repeat split. discriminate.
Qed.

(* ================================================================== *)
(** * The claims at work on the scenarios *)

Lemma amount_filter_witness :
  In scenario_proposal
     (reconcile iso_calendar_date [scenario_invoice] [txn_other_amount; txn_near]) /\
  exists inv t,
    In inv [scenario_invoice] /\ In t [txn_other_amount; txn_near] /\
    best (scan_invoice iso_calendar_date
            (build_txns_by_amount [txn_other_amount; txn_near]) inv) = Some t /\
    invoice_number scenario_proposal = get_invoice_number inv /\
    bank_transaction_id scenario_proposal = str_id t /\
    float_eqb (round2 (get_float (txn_amount t)))
              (round2 (get_float (inv_total inv))) = true.
Proof.
  split.
  - vm_compute. left. reflexivity.
  - apply (amount_filter iso_calendar_date).
    vm_compute. left. reflexivity.
Defined.

Lemma tie_break_first_witness :
  best (scan_invoice iso_calendar_date
          (build_txns_by_amount [txn_far; txn_near; txn_other_amount; txn_near_again])
          scenario_invoice) = Some txn_near /\
  exists pre post,
    [txn_far; txn_near; txn_other_amount; txn_near_again] = pre ++ txn_near :: post /\
    is_candidate scenario_invoice txn_near = true /\
    (forall t', In t' pre -> is_candidate scenario_invoice t' = true ->
       (fst (score_candidate iso_calendar_date
               (parse_date_field iso_calendar_date
                  (inv_invoice_date scenario_invoice)) t') <
        fst (score_candidate iso_calendar_date
               (parse_date_field iso_calendar_date
                  (inv_invoice_date scenario_invoice)) txn_near))%Q) /\
    (forall t', In t' post -> is_candidate scenario_invoice t' = true ->
       (fst (score_candidate iso_calendar_date
               (parse_date_field iso_calendar_date
                  (inv_invoice_date scenario_invoice)) t') <=
        fst (score_candidate iso_calendar_date
               (parse_date_field iso_calendar_date
                  (inv_invoice_date scenario_invoice)) txn_near))%Q).
Proof.
  split.
  - vm_compute. reflexivity.
  - apply (tie_break_first iso_calendar_date scenario_invoice
             [txn_far; txn_near; txn_other_amount; txn_near_again] txn_near).
    vm_compute. reflexivity.
Defined.

Lemma one_per_invoice_in_order_witness :
  reconcile iso_calendar_date (stored_invoices scenario_store)
    (stored_txns scenario_store) =
  flat_map (fun inv => reconcile iso_calendar_date [inv] (stored_txns scenario_store))
    (stored_invoices scenario_store) /\
  (List.length (reconcile iso_calendar_date [scenario_invoice]
                  (stored_txns scenario_store)) <= 1)%nat.
Proof.
  destruct (one_per_invoice_in_order iso_calendar_date
              (stored_invoices scenario_store) (stored_txns scenario_store))
    as [Hflat Hone].
  split.
  - exact Hflat.
  - exact (proj1 (Hone scenario_invoice)).
Defined.

Lemma confidence_bound_witness :
  In scenario_proposal
     (reconcile iso_calendar_date (stored_invoices scenario_store)
        (stored_txns scenario_store)) /\
  (0 <= confidence scenario_proposal /\ confidence scenario_proposal <= 1)%Q.
Proof.
  assert (H : In scenario_proposal
                (reconcile iso_calendar_date (stored_invoices scenario_store)
                   (stored_txns scenario_store))).
  { vm_compute. left. reflexivity. }
  split.
  - exact H.
  - exact (proj1 (confidence_bound iso_calendar_date _ _ _ H)).
Defined.

Lemma no_candidate_silent_witness :
  (forall t, In t [txn_other_amount] ->
     float_eqb (round2 (get_float (txn_amount t)))
               (round2 (get_float (inv_total scenario_invoice))) = false) /\
  reconcile iso_calendar_date [scenario_invoice] [txn_other_amount] = [].
Proof.
  assert (H : forall t, In t [txn_other_amount] ->
     float_eqb (round2 (get_float (txn_amount t)))
               (round2 (get_float (inv_total scenario_invoice))) = false).
  { intros t [<- | []]. vm_compute. reflexivity. }
  split.
  - exact H.
  - exact (proj1 (no_candidate_silent iso_calendar_date [] [] scenario_invoice
                    [txn_other_amount] H)).
Defined.

Lemma proposal_iff_candidate_witness :
  exists r, reconcile iso_calendar_date [scenario_invoice]
              [txn_other_amount; txn_near] = [r].
Proof.
  apply (proj1 (proposal_iff_candidate iso_calendar_date scenario_invoice
                  [txn_other_amount; txn_near])).
  exists txn_near. split.
  - simpl. right. left. reflexivity.
  - vm_compute. reflexivity.
Defined.

Lemma scoring_rule_witness :
  reconcile iso_calendar_date [scenario_invoice] [txn_near] = [scenario_proposal].
Proof.
  refine (proj2 (proj2 (scoring_rule iso_calendar_date)) (txn_id txn_near)
            {| dt_date := {| year := 2024; month := 1; day := 1 |};
               dt_microseconds := 0 |}
            {| dt_date := {| year := 2024; month := 1; day := 3 |};
               dt_microseconds := 0 |} _ _ _ _);
    vm_compute; reflexivity.
Defined.

Lemma persist_failure_is_500_witness :
  mem_match_invoices_to_bank 1 scenario_store =
  ({| stored_invoices := stored_invoices scenario_store;
      stored_txns := stored_txns scenario_store;
      stored_matches := [scenario_proposal] |},
   inl {| status_code := 500; detail := "store unavailable" |}).
Proof.
  refine (proj1 (persist_failure_is_500 iso_calendar_date mem_store
                   mem_get_invoices mem_get_txns (mem_create_document 1)
                   scenario_store _
                   (stored_invoices scenario_store) (stored_txns scenario_store)
                   _ _ _ _));
    vm_compute; reflexivity.
Defined.

(* ================================================================== *)
(** * Further properties of the engine *)

Section EngineMore.

Variable fromisoformat : string -> option datetime.

Local Abbreviation score := (score_candidate fromisoformat).
Local Abbreviation run := (run_candidates fromisoformat).
Local Abbreviation engine := (reconcile fromisoformat).
Local Abbreviation scan := (scan_invoice fromisoformat).
Local Abbreviation close := (within_week fromisoformat).
Local Abbreviation inv_date_of :=
  (fun inv => parse_date_field fromisoformat (inv_invoice_date inv)).

Lemma score_fst (i : option datetime) (t : TxnDoc) :
  fst (score i t) = if close i t then (0.6 + 0.4)%Q else 0.6%Q.
Proof.
  unfold score_candidate, within_week.
  destruct i as [i | ]; [ | reflexivity ].
  destruct (parse_date_field fromisoformat (txn_date t)) as [d | ];
    [ | reflexivity ].
  destruct (abs_days (dt_date d) (dt_date i) <=? 7); reflexivity.
Qed.

Lemma find_none_existsb {A : Type} (p : A -> bool) (l : list A) :
  find p l = None <-> existsb p l = false.
Proof.
  induction l as [ | a l IH]; simpl; [ tauto | ].
  destruct (p a); simpl; [ split; discriminate | exact IH ].
Qed.

Lemma find_snoc {A : Type} (p : A -> bool) (l : list A) (x : A) :
  find p (l ++ [x]) =
  match find p l with
  | Some a => Some a
  | None => if p x then Some x else None
  end.
Proof.
  induction l as [ | a l IH]; simpl; [ reflexivity | ].
  destruct (p a); [ reflexivity | exact IH ].
Qed.

Lemma hd_error_snoc {A : Type} (l : list A) (x : A) :
  hd_error (l ++ [x]) = match l with [] => Some x | a :: _ => Some a end.
Proof. destruct l; reflexivity. Qed.

(** The loop against its closed form. *)
Lemma run_closed_form (i : option datetime) (cs : list TxnDoc) :
  best (run i cs) = first_choice fromisoformat i cs /\
  best_score (run i cs) = final_score fromisoformat i cs.
Proof.
  induction cs as [ | x l IH] using rev_ind; [ split; reflexivity | ].
  destruct IH as [Hb Hs].
  rewrite run_snoc. unfold loop_body.
  destruct (score i x) as [sc r] eqn:Ex.
  assert (Hsc : sc = if close i x then (0.6 + 0.4)%Q else 0.6%Q)
    by (rewrite <- score_fst, Ex; reflexivity).
  rewrite Hs. unfold first_choice, final_score in *.
  rewrite find_snoc, existsb_app, hd_error_snoc. simpl (existsb _ [x]).
  rewrite orb_false_r.
  destruct (existsb (close i) l) eqn:El.
  - (* a boosted candidate was already seen: nothing changes *)
    destruct (find (close i) l) as [a | ] eqn:Ef;
      [ | apply find_none_existsb in Ef; congruence ].
    assert (Hno : Qgt_bool sc (0.6 + 0.4) = false)
      by (rewrite Hsc; destruct (close i x); reflexivity).
    rewrite Hno. simpl. split; [ exact Hb | reflexivity ].
  - apply find_none_existsb in El. rewrite El in *. simpl.
    destruct l as [ | y l'].
    + assert (Hyes : Qgt_bool sc (-1) = true)
        by (rewrite Hsc; destruct (close i x); reflexivity).
      rewrite Hyes. simpl. split.
      * destruct (close i x); reflexivity.
      * rewrite Hsc. simpl. destruct (close i x); reflexivity.
    + rewrite Hsc. destruct (close i x); simpl.
      * split; reflexivity.
      * split; [ exact Hb | reflexivity ].
Qed.

Lemma best_is_candidate (inv : InvoiceDoc) (txns : list TxnDoc) (t : TxnDoc) :
  best (scan (build_txns_by_amount txns) inv) = Some t ->
  In t txns /\ is_candidate inv t = true.
Proof.
  rewrite scan_filter. intros Hb.
  rewrite (proj1 (run_closed_form _ _)) in Hb. unfold first_choice in Hb.
  apply filter_In.
  destruct (find _ _) as [a | ] eqn:Ef.
  - injection Hb as <-. apply find_some in Ef. tauto.
  - destruct (filter (is_candidate inv) txns); [ discriminate | ].
    injection Hb as <-. now left.
Qed.

Lemma has_candidate_filter (inv : InvoiceDoc) (txns : list TxnDoc) :
  has_candidate txns inv = false <-> filter (is_candidate inv) txns = [].
Proof.
  unfold has_candidate. rewrite filter_nil_iff. split.
  - intros H t Hin. destruct (is_candidate inv t) eqn:E; [ | reflexivity ].
    assert (existsb (is_candidate inv) txns = true)
      by (apply existsb_exists; now exists t).
    congruence.
  - intros H. destruct (existsb (is_candidate inv) txns) eqn:E; [ | reflexivity ].
    apply existsb_exists in E. destruct E as (t & Hin & Hc).
    rewrite (H t Hin) in Hc. discriminate.
Qed.

(** What one invoice contributes, in closed form. *)
Lemma reconcile_single_closed (inv : InvoiceDoc) (txns : list TxnDoc) :
  let cs := filter (is_candidate inv) txns in
  engine [inv] txns =
  match first_choice fromisoformat (inv_date_of inv) cs with
  | Some t =>
      [ {| invoice_number := get_invoice_number inv;
           bank_transaction_id := str_id t;
           confidence := round2Q (final_score fromisoformat (inv_date_of inv) cs);
           reason := cur_reason (scan (build_txns_by_amount txns) inv) |} ]
  | None => []
  end.
Proof.
  intros cs. rewrite reconcile_single. unfold invoice_step.
  pose proof (scan_filter fromisoformat inv txns) as Hscan.
  destruct (run_closed_form (inv_date_of inv) cs) as [Hb Hs].
  fold cs in Hscan. rewrite <- Hscan in Hb, Hs. rewrite Hb, Hs.
  reflexivity.
Qed.

End EngineMore.

Section EngineExtras.

Variable fromisoformat : string -> option datetime.

Local Abbreviation score := (score_candidate fromisoformat).
Local Abbreviation engine := (reconcile fromisoformat).
Local Abbreviation scan := (scan_invoice fromisoformat).
Local Abbreviation close := (within_week fromisoformat).
Local Abbreviation inv_date_of :=
  (fun inv => parse_date_field fromisoformat (inv_invoice_date inv)).

Lemma existsb_filter {A : Type} (p q : A -> bool) (l : list A) :
  existsb q (filter p l) = existsb (fun a => p a && q a) l.
Proof.
  induction l as [ | a l IH]; simpl; [ reflexivity | ].
  destruct (p a); simpl; now rewrite IH.
Qed.

Lemma existsb_perm {A : Type} (p : A -> bool) (l l' : list A) :
  Permutation l l' -> existsb p l = existsb p l'.
Proof.
  intros HP. apply eq_true_iff_eq. rewrite !existsb_exists.
  split; intros (a & Hin & Ha); exists a; split; try assumption.
  - eapply Permutation_in; eassumption.
  - eapply Permutation_in; [ apply Permutation_sym | ]; eassumption.
Qed.

Lemma first_choice_none (i : option datetime) (cs : list TxnDoc) :
  first_choice fromisoformat i cs = None <-> cs = [].
Proof.
  unfold first_choice. split.
  - destruct (find (close i) cs); [ discriminate | ].
    destruct cs; [ reflexivity | discriminate ].
  - intros ->. reflexivity.
Qed.

(** Invoice number and confidence of what one invoice contributes. *)
Lemma single_number_confidence (inv : InvoiceDoc) (txns : list TxnDoc) :
  map (fun r => (invoice_number r, confidence r)) (engine [inv] txns) =
  if has_candidate txns inv
  then [ (get_invoice_number inv,
          if existsb (fun t => is_candidate inv t && close (inv_date_of inv) t) txns
          then 1%Q else (3 # 5)%Q) ]
  else [].
Proof.
  rewrite reconcile_single_closed.
  destruct (has_candidate txns inv) eqn:Hc.
  - destruct (first_choice _ _ _) as [t | ] eqn:Hf.
    + simpl. unfold final_score. rewrite existsb_filter.
      destruct (existsb _ txns); [ reflexivity | ].
      destruct (filter (is_candidate inv) txns) eqn:Ef; [ | reflexivity ].
      apply has_candidate_filter in Ef. congruence.
    + apply first_choice_none, has_candidate_filter in Hf. congruence.
  - apply has_candidate_filter in Hc. rewrite Hc. reflexivity.
Qed.

(** X1 -- empty inputs: without invoices, or without transactions, the run
    returns no proposal. *)
Theorem empty_inputs :
  (forall txns, reconcile fromisoformat [] txns = []) /\
  (forall invs, reconcile fromisoformat invs [] = []).
Proof.
  split; [ reflexivity | ].
  intros invs. rewrite reconcile_flat_map.
  induction invs as [ | inv invs IH]; [ reflexivity | ].
  simpl. rewrite IH. reflexivity.
Qed.

(** X2 -- the invoices that appear in the result are exactly those that have
    a transaction of equal rounded amount, once each and in input
    order; so there are never more proposals than invoices. *)
Theorem proposals_are_matched_invoices (invs : list InvoiceDoc)
  (txns : list TxnDoc) :
  map invoice_number (engine invs txns) =
    map get_invoice_number (filter (has_candidate txns) invs) /\
  (List.length (engine invs txns) <= List.length invs)%nat.
Proof.
  assert (H : map invoice_number (engine invs txns) =
              map get_invoice_number (filter (has_candidate txns) invs)).
  { rewrite reconcile_flat_map.
    induction invs as [ | inv invs IH]; [ reflexivity | ].
    simpl. rewrite map_app, IH.
    pose proof (single_number_confidence inv txns) as Hs.
    apply (f_equal (map fst)) in Hs. rewrite map_map in Hs. simpl in Hs.
    change (fun x : MatchResult => invoice_number x) with invoice_number in Hs.
    rewrite Hs. destruct (has_candidate txns inv); reflexivity. }
  split; [ exact H | ].
  apply (f_equal (@List.length string)) in H. rewrite !length_map in H.
  rewrite H. apply filter_length_le.
Qed.

(** X3 -- the reason of a proposal is the text computed for the last
    transaction, in input order, that has the invoice's rounded amount;
    in particular a proposal always carries a reason. *)
Theorem reason_from_last_candidate (invs : list InvoiceDoc)
  (txns : list TxnDoc) (r : MatchResult) :
  In r (engine invs txns) ->
  exists inv cs x,
    In inv invs /\
    invoice_number r = get_invoice_number inv /\
    filter (is_candidate inv) txns = cs ++ [x] /\
    reason r = Some (snd (score (inv_date_of inv) x)).
Proof.
  rewrite reconcile_flat_map, in_flat_map.
  intros (inv & Hinv & Hr).
  destruct (reconcile_single_cases fromisoformat inv txns)
    as [(_ & _ & Hnil) | (t & Hne & _ & Heq)].
  - rewrite Hnil in Hr. destruct Hr.
  - destruct (exists_last Hne) as (cs & x & Hsplit).
    destruct (reason_is_last_candidate fromisoformat inv txns cs x Hsplit)
      as (r' & Hr' & Hreason).
    rewrite Hr' in Hr. destruct Hr as [<- | []].
    exists inv, cs, x. repeat split; try assumption.
    rewrite Heq in Hr'. injection Hr' as <-. reflexivity.
Qed.

(** X4 -- the transaction an invoice is paired with is the first one, in
    input order, of equal rounded amount whose date lies within 7 days
    of the invoice's, and the first of equal rounded amount when there
    is none. *)
Theorem selection_closed_form (inv : InvoiceDoc) (txns : list TxnDoc) :
  best (scan (build_txns_by_amount txns) inv) =
    first_choice fromisoformat (inv_date_of inv) (filter (is_candidate inv) txns) /\
  map bank_transaction_id (engine [inv] txns) =
    match first_choice fromisoformat (inv_date_of inv)
            (filter (is_candidate inv) txns) with
    | Some t => [str_id t]
    | None => []
    end.
Proof.
  split.
  - rewrite scan_filter. apply run_closed_form.
  - rewrite reconcile_single_closed.
    destruct (first_choice _ _ _); reflexivity.
Qed.

(** X5 -- the confidence of a proposal is 1.0 when some transaction of equal
    rounded amount is dated within 7 days of the invoice, and 0.6
    otherwise. *)
Theorem confidence_is_date_bonus (invs : list InvoiceDoc) (txns : list TxnDoc)
  (r : MatchResult) :
  In r (engine invs txns) ->
  exists inv,
    In inv invs /\
    invoice_number r = get_invoice_number inv /\
    confidence r =
      if existsb (fun t => is_candidate inv t && close (inv_date_of inv) t) txns
      then 1%Q else (3 # 5)%Q.
Proof.
  rewrite reconcile_flat_map, in_flat_map.
  intros (inv & Hinv & Hr). exists inv. split; [ exact Hinv | ].
  apply (in_map (fun r => (invoice_number r, confidence r))) in Hr.
  rewrite single_number_confidence in Hr.
  destruct (has_candidate txns inv); [ | destruct Hr ].
  destruct Hr as [Hr | []]. injection Hr as <- <-. split; reflexivity.
Qed.


End EngineExtras.

(** ** The bucket index as a whole *)

Lemma dict_append_perm (k : pyfloat) (t : TxnDoc) (d : amount_dict) :
  Permutation (t :: List.concat (map snd d)) (List.concat (map snd (dict_append k t d))).
Proof.
  induction d as [ | [k' b] d IH]; simpl.
  - reflexivity.
  - destruct (float_eqb k' k); simpl.
    + rewrite <- app_assoc. simpl.
      apply (Permutation_middle b (List.concat (map snd d)) t).
    + rewrite <- IH. apply (Permutation_middle b (List.concat (map snd d)) t).
Qed.

Lemma dict_append_nonempty (k : pyfloat) (t : TxnDoc) (d : amount_dict) :
  Forall (fun kb => snd kb <> []) d ->
  Forall (fun kb => snd kb <> []) (dict_append k t d).
Proof.
  induction d as [ | [k' b] d IH]; intros H; simpl.
  - constructor; [ discriminate | constructor ].
  - inversion H as [ | ? ? Hb Hd]; subst.
    destruct (float_eqb k' k); constructor; auto.
    simpl. destruct b; discriminate.
Qed.

Lemma build_fold_invariant (txns : list TxnDoc) (d : amount_dict) :
  let d' := fold_left (fun d t => dict_append (txn_key t) t d) txns d in
  Permutation (List.concat (map snd d) ++ txns) (List.concat (map snd d')) /\
  (Forall (fun kb => snd kb <> []) d -> Forall (fun kb => snd kb <> []) d').
Proof.
  revert d. induction txns as [ | t txns IH]; intros d; simpl.
  - rewrite app_nil_r. split; [ reflexivity | tauto ].
  - destruct (IH (dict_append (txn_key t) t d)) as [HP HF]. split.
    + rewrite <- HP, <- (dict_append_perm (txn_key t) t d).
      symmetry. apply Permutation_middle.
    + intros H. apply HF, dict_append_nonempty, H.
Qed.

(** X7 -- grouping loses and duplicates nothing: the buckets of the index,
    taken together, hold the input transactions, each as often as it
    was given, and no bucket is empty. *)
Theorem grouping_keeps_every_transaction (txns : list TxnDoc) :
  Permutation txns (List.concat (map snd (build_txns_by_amount txns))) /\
  Forall (fun kb => snd kb <> []) (build_txns_by_amount txns).
Proof.
  destruct (build_fold_invariant txns []) as [HP HF]. split.
  - exact HP.
  - apply HF. constructor.
Qed.

Section EngineEdgeCases.

Variable fromisoformat : string -> option datetime.

Local Abbreviation engine := (reconcile fromisoformat).
Local Abbreviation scan := (scan_invoice fromisoformat).
Local Abbreviation close := (within_week fromisoformat).
Local Abbreviation inv_date_of :=
  (fun inv => parse_date_field fromisoformat (inv_invoice_date inv)).

Lemma float_eqb_nan_r (a : pyfloat) : float_eqb a NaN = false.
Proof. destruct a; reflexivity. Qed.

(** X8 -- NaN matches nothing: a transaction whose amount is NaN is never
    the one paired with an invoice, and an invoice whose total is NaN
    gets no proposal, even against a transaction whose amount is NaN. *)
Theorem nan_never_matches (inv : InvoiceDoc) (txns : list TxnDoc) :
  (forall t, best (scan (build_txns_by_amount txns) inv) = Some t ->
             txn_amount t <> Some NaN) /\
  (inv_total inv = Some NaN -> engine [inv] txns = []).
Proof.
  split.
  - intros t Hb Hnan. apply best_is_candidate in Hb. destruct Hb as [_ Hc].
    unfold is_candidate, txn_key in Hc. rewrite Hnan in Hc. discriminate.
  - intros Hnan.
    destruct (reconcile_single_cases fromisoformat inv txns)
      as [(_ & _ & H) | (t & Hne & _)]; [ exact H | ].
    exfalso. apply Hne. apply filter_nil_iff. intros t' _.
    unfold is_candidate, inv_key. rewrite Hnan. apply float_eqb_nan_r.
Qed.

(** X9 -- missing keys default to 0 on both sides: an invoice without a
    total is paired with a transaction without an amount. *)
Theorem missing_amounts_match (inv : InvoiceDoc) (txns : list TxnDoc)
  (t : TxnDoc) :
  inv_total inv = None ->
  txn_amount t = None ->
  In t txns ->
  exists r, engine [inv] txns = [r] /\
            invoice_number r = get_invoice_number inv /\
            exists t', In t' txns /\ bank_transaction_id r = str_id t' /\
                       float_eqb (round2 (get_float (txn_amount t'))) (Finite 0) = true.
Proof.
  intros Hi Ht Hin.
  assert (Hc : is_candidate inv t = true).
  { unfold is_candidate, txn_key, inv_key. rewrite Hi, Ht. reflexivity. }
  destruct (reconcile_single_cases fromisoformat inv txns)
    as [(Hnil & _) | (t' & _ & Hb & Heq)].
  - apply filter_nil_iff with (t := t) in Hnil; [ congruence | exact Hin ].
  - eexists. split; [ exact Heq | ]. split; [ reflexivity | ].
    apply best_is_candidate in Hb. destruct Hb as [Hin' Hc'].
    exists t'. repeat split; try assumption.
    unfold is_candidate, txn_key, inv_key in Hc'. rewrite Hi in Hc'.
    exact Hc'.
Qed.

(** X10 -- the order of the transactions decides which transaction and which
    reason a proposal names, never which invoices get a proposal nor
    with what confidence. *)
Theorem confidence_ignores_transaction_order (invs : list InvoiceDoc)
  (txns txns' : list TxnDoc) :
  Permutation txns txns' ->
  map (fun r => (invoice_number r, confidence r)) (engine invs txns) =
  map (fun r => (invoice_number r, confidence r)) (engine invs txns').
Proof.
  intros HP.
  rewrite (reconcile_flat_map fromisoformat invs txns),
          (reconcile_flat_map fromisoformat invs txns').
  induction invs as [ | inv invs IH]; [ reflexivity | ].
  simpl. rewrite !map_app, IH. f_equal.
  rewrite !single_number_confidence. unfold has_candidate.
  rewrite (existsb_perm (is_candidate inv) _ _ HP).
  rewrite (existsb_perm (fun t => is_candidate inv t && close (inv_date_of inv) t)
             _ _ HP).
  reflexivity.
Qed.

(** X11 -- reordering the invoices only reorders the proposals. *)
Theorem invoice_order_only_reorders (invs invs' : list InvoiceDoc)
  (txns : list TxnDoc) :
  Permutation invs invs' ->
  Permutation (engine invs txns) (engine invs' txns).
Proof.
  intros HP.
  rewrite (reconcile_flat_map fromisoformat invs txns),
          (reconcile_flat_map fromisoformat invs' txns).
  now apply Permutation_flat_map.
Qed.

End EngineEdgeCases.

(* ================================================================== *)
(** * Further properties of the endpoints *)

Section MatchEndpointExtras.

Variable fromisoformat : string -> option datetime.
Variable Store : Type.
Variable get_invoices : nat -> Store -> string + list InvoiceDoc.
Variable get_txns : nat -> Store -> string + list TxnDoc.
Variable create_document : string -> MatchResult -> Store -> Store * (string + string).

Local Abbreviation endpoint :=
  (match_invoices_to_bank fromisoformat Store get_invoices get_txns create_document).
Local Abbreviation persist := (store_matches Store create_document).

Lemma store_matches_fold (rs : list MatchResult) (s s' : Store) :
  persist rs s = (s', inr tt) ->
  s' = fold_left (fun st r => fst (create_document "match" r st)) rs s.
Proof.
  revert s. induction rs as [ | r rs IH]; intros s H; simpl in H.
  - unfold ret in H. now injection H as <-.
  - unfold bind in H. simpl.
    destruct (create_document "match" r s) as [s1 [e | i]]; [ discriminate | ].
    simpl. now apply IH.
Qed.

(** X12 -- a failing read fails the run before anything is computed or
    written: the response is the error of status 500 with the store's
    message, whichever of the two reads fails. *)
Theorem read_failure_is_500 (s : Store) (e : string) :
  (get_invoices 500 s = inl e ->
   match_invoices_to_bank fromisoformat Store get_invoices get_txns
     create_document s =
   (s, inl {| status_code := 500; detail := e |})) /\
  (forall invs, get_invoices 500 s = inr invs -> get_txns 1000 s = inl e ->
   match_invoices_to_bank fromisoformat Store get_invoices get_txns
     create_document s =
   (s, inl {| status_code := 500; detail := e |})).
Proof.
  split.
  - intros H. unfold match_invoices_to_bank, try_except_500, bind, read.
    rewrite H. reflexivity.
  - intros invs Hi Ht. unfold match_invoices_to_bank, try_except_500, bind, read.
    rewrite Hi, Ht. reflexivity.
Qed.

(** X13 -- a run that returns proposals has written exactly those, one write
    each, in the order returned, to the collection "match"; it reads
    both collections with limits 500 and 1000 and returns the engine's
    value on them. *)
Theorem success_writes_each_proposal_once (s s' : Store)
  (rs : list MatchResult) :
  endpoint s = (s', inr rs) ->
  s' = fold_left (fun st r => fst (create_document "match" r st)) rs s /\
  exists invs txns,
    get_invoices 500 s = inr invs /\ get_txns 1000 s = inr txns /\
    rs = reconcile fromisoformat invs txns.
Proof.
  intros H.
  destruct (get_invoices 500 s) as [e | invs] eqn:Hi.
  - unfold match_invoices_to_bank, try_except_500, bind, read in H.
    rewrite Hi in H. discriminate.
  - destruct (get_txns 1000 s) as [e | txns] eqn:Ht.
    + unfold match_invoices_to_bank, try_except_500, bind, read in H.
      rewrite Hi, Ht in H. discriminate.
    + rewrite (endpoint_outcome fromisoformat Store get_invoices get_txns
                 create_document s invs txns Hi Ht) in H.
      destruct (persist (reconcile fromisoformat invs txns) s)
        as [s1 [e | []]] eqn:Hp; [ discriminate | ].
      injection H as <- <-. split.
      * now apply store_matches_fold.
      * exists invs, txns. repeat split.
Qed.

End MatchEndpointExtras.

Section StoreEndpointExtras.

Variable Value : Type.
Variable py_str : Value -> string.
Variable of_str : string -> Value.
Variable Store : Type.
Variable Model : Type.
Variable get_documents : string -> nat -> Store -> string + list (document Value).
Variable create_document : string -> Model -> Store -> Store * (string + string).

Local Abbreviation stringify := (stringify_id Value py_str of_str).

Lemma stringify_id_fields (d : document Value) :
  map fst (stringify d) = map fst d /\
  (forall k v, In (k, v) d -> k <> "_id"%string -> In (k, v) (stringify d)) /\
  (forall v, In ("_id"%string, v) d ->
             In ("_id"%string, of_str (py_str v)) (stringify d)) /\
  (forall k v, In (k, v) (stringify d) ->
     (k <> "_id"%string /\ In (k, v) d) \/
     (k = "_id"%string /\ exists v0, In (k, v0) d /\ v = of_str (py_str v0))).
Proof.
  unfold stringify_id. repeat split.
  - rewrite map_map. reflexivity.
  - intros k v Hin Hk. apply in_map_iff. exists (k, v). split; [ | exact Hin ].
    simpl. apply String.eqb_neq in Hk. now rewrite Hk.
  - intros v Hin. apply in_map_iff. exists ("_id"%string, v).
    split; [ reflexivity | exact Hin ].
  - intros k v Hin. apply in_map_iff in Hin.
    destruct Hin as ([k0 v0] & Heq & Hin). simpl in Heq.
    destruct (String.eqb k0 "_id") eqn:Ek; injection Heq as <- <-.
    + right. apply String.eqb_eq in Ek. subst k0.
      split; [ reflexivity | ]. now exists v0.
    + left. apply String.eqb_neq in Ek. now split.
Qed.

(** X14 -- listing returns the stored documents as the store gave them, in the
    same number and order, with the same keys in the same order; the
    value under [_id] is replaced by its string, every other value is
    left as it is.  The store is not changed, and a failing read is
    the error of status 500. *)
Theorem listing_changes_only_id (s : Store) :
  match get_documents "invoice" 100 s with
  | inr docs =>
      exists out,
        list_invoices Value py_str of_str Store get_documents s = (s, inr out) /\
        Forall2 (fun d o =>
                   map fst o = map fst d /\
                   (forall k v, In (k, v) d -> k <> "_id"%string -> In (k, v) o) /\
                   (forall v, In ("_id"%string, v) d ->
                              In ("_id"%string, of_str (py_str v)) o) /\
                   (forall k v, In (k, v) o ->
                      (k <> "_id"%string /\ In (k, v) d) \/
                      (k = "_id"%string /\
                       exists v0, In (k, v0) d /\ v = of_str (py_str v0))))
                docs out
  | inl e =>
      list_invoices Value py_str of_str Store get_documents s =
      (s, inl {| status_code := 500; detail := e |})
  end /\
  match get_documents "banktransaction" 200 s with
  | inr docs =>
      list_bank_txns Value py_str of_str Store get_documents s =
      (s, inr (map stringify docs))
  | inl e =>
      list_bank_txns Value py_str of_str Store get_documents s =
      (s, inl {| status_code := 500; detail := e |})
  end.
Proof.
  split.
  - unfold list_invoices, try_except_500, bind, read, ret.
    destruct (get_documents "invoice" 100 s) as [e | docs]; [ reflexivity | ].
    exists (map stringify docs). split; [ reflexivity | ].
    induction docs as [ | d docs IH]; simpl; constructor.
    + apply stringify_id_fields.
    + exact IH.
  - unfold list_bank_txns, try_except_500, bind, read, ret.
    destruct (get_documents "banktransaction" 200 s); reflexivity.
Qed.

(** X15 -- listing what was listed changes nothing more: once the [_id] is a
    string, turning it into a string again leaves it as it is. *)
Theorem stringify_id_idempotent (d : document Value) :
  (forall x, py_str (of_str x) = x) ->
  stringify (stringify d) = stringify d.
Proof.
  intros Hstr. unfold stringify_id. rewrite map_map.
  apply map_ext. intros [k v]. simpl.
  destruct (String.eqb k "_id"); [ | reflexivity ].
  now rewrite Hstr.
Qed.

(** Creating an invoice or a bank transaction is one write to the
    collection of that name: the response carries the identifier the
    store assigned and the status "created", or, when the write fails,
    the error of status 500 with the store's message; the store is left
    as that one write left it. *)
Lemma create_is_one_write (m : Model) (s : Store) :
  create_invoice Store Model create_document m s =
    (fst (create_document "invoice" m s),
     match snd (create_document "invoice" m s) with
     | inr i => inr {| id := i; status := "created" |}
     | inl e => inl {| status_code := 500; detail := e |}
     end) /\
  create_bank_txn Store Model create_document m s =
    (fst (create_document "banktransaction" m s),
     match snd (create_document "banktransaction" m s) with
     | inr i => inr {| id := i; status := "created" |}
     | inl e => inl {| status_code := 500; detail := e |}
     end).
Proof.
  unfold create_invoice, create_bank_txn, try_except_500, bind, ret.
  split.
  - destruct (create_document "invoice" m s) as [s' [e | i]]; reflexivity.
  - destruct (create_document "banktransaction" m s) as [s' [e | i]]; reflexivity.
Qed.

End StoreEndpointExtras.

Section TestDatabaseExtras.

Variable DB : Type.
Variable list_collection_names : DB -> string + list string.
Variable str_prefix : nat -> string -> string.

Local Abbreviation probe := (test_database DB list_collection_names str_prefix).

(** X16 -- the probe reports "Connected" exactly when a database handle exists
    and listing its collections succeeds; it then shows the first ten
    collection names at most, and shows none in every other case. *)
Theorem connected_iff_listing_succeeds (db : option DB)
  (getenv : string -> option string) :
  (connection_status (test_database DB list_collection_names str_prefix db getenv) = "Connected"%string <->
   exists d names, db = Some d /\ list_collection_names d = inr names) /\
  (forall d names, db = Some d -> list_collection_names d = inr names ->
     collections (probe db getenv) = firstn 10 names /\
     database (probe db getenv) = "✅ Connected & Working"%string) /\
  (connection_status (probe db getenv) <> "Connected"%string ->
     collections (probe db getenv) = []) /\
  (List.length (collections (probe db getenv)) <= 10)%nat.
Proof.
  unfold test_database.
  destruct db as [d | ].
  - destruct (list_collection_names d) as [e | names] eqn:El; cbn [connection_status collections database backend database_url database_name].
    + split; [ split; [ discriminate | ] | ].
      * intros (d0 & names & Hd & Hl). injection Hd as <-. congruence.
      * split; [ | split; [ reflexivity | simpl; lia ] ].
        intros d0 names Hd Hl. injection Hd as <-. congruence.
    + split; [ split; [ | reflexivity ] | ].
      * intros _. now exists d, names.
      * split; [ | split; [ congruence | apply firstn_le_length ] ].
        intros d0 names0 Hd Hl. injection Hd as <-.
        rewrite El in Hl. injection Hl as <-. split; reflexivity.
  - cbn [connection_status collections database backend database_url database_name]. split; [ split; [ discriminate | ] | ].
    + intros (d0 & names & Hd & _). discriminate.
    + split; [ discriminate | split; [ reflexivity | simpl; lia ] ].
Qed.

(** X17 -- the two values the probe starts from are never what it returns:
    the database line is never "Not Available" and never the bare
    "Available"; it is "Connected & Working", the "Connected but
    Error" line, or "Available but not initialized". *)
Theorem initial_status_never_returned (db : option DB)
  (getenv : string -> option string) :
  database (test_database DB list_collection_names str_prefix db getenv) <> "❌ Not Available"%string /\
  database (probe db getenv) <> "✅ Available"%string /\
  (db = None <->
   database (probe db getenv) = "⚠️ Available but not initialized"%string).
Proof.
  unfold test_database.
  destruct db as [d | ]; [ destruct (list_collection_names d) as [e | names] | ];
    simpl; repeat split; try discriminate; try tauto.
Qed.

(** X18 -- with a database handle, an environment variable is reported as set
    exactly when it is defined and not empty; without a handle the two
    lines stay absent. *)
Theorem env_reported_set_iff_nonempty (db : option DB)
  (getenv : string -> option string) :
  (forall d, db = Some d ->
     (database_url (test_database DB list_collection_names str_prefix db getenv) = Some "✅ Set"%string <->
      exists v, getenv "DATABASE_URL"%string = Some v /\ v <> ""%string) /\
     (database_name (probe db getenv) = Some "✅ Set"%string <->
      exists v, getenv "DATABASE_NAME"%string = Some v /\ v <> ""%string) /\
     database_url (probe db getenv) <> None /\
     database_name (probe db getenv) <> None) /\
  (db = None ->
     database_url (probe db getenv) = None /\
     database_name (probe db getenv) = None).
Proof.
  assert (Hflag : forall o, env_flag o = "✅ Set"%string <->
                            exists v, o = Some v /\ v <> ""%string).
  { intros [[ | c w] | ]; simpl; split; try discriminate.
    - intros (v & Hv & Hne). injection Hv as <-. congruence.
    - intros _. eexists. split; [ reflexivity | discriminate ].
    - reflexivity.
    - intros (v & Hv & _). discriminate. }
  split.
  - intros d ->. unfold test_database.
    destruct (list_collection_names d);
      cbn [database_url database_name]; repeat split;
      try discriminate;
      try (intros H; injection H as H; now apply Hflag);
      try (intros H; f_equal; now apply Hflag).
  - intros ->. split; reflexivity.
Qed.

End TestDatabaseExtras.

(* ================================================================== *)
(** * The further properties at work on the scenarios *)

Lemma reason_from_last_candidate_witness :
  In scenario_proposal
     (reconcile iso_calendar_date [scenario_invoice] [txn_other_amount; txn_near]) /\
  exists inv cs x,
    In inv [scenario_invoice] /\
    invoice_number scenario_proposal = get_invoice_number inv /\
    filter (is_candidate inv) [txn_other_amount; txn_near] = cs ++ [x] /\
    reason scenario_proposal =
      Some (snd (score_candidate iso_calendar_date
                   (parse_date_field iso_calendar_date (inv_invoice_date inv)) x)).
Proof.
  split.
  - vm_compute. left. reflexivity.
  - apply (reason_from_last_candidate iso_calendar_date).
    vm_compute. left. reflexivity.
Defined.

Lemma confidence_is_date_bonus_witness :
  In scenario_proposal
     (reconcile iso_calendar_date [scenario_invoice] [txn_far; txn_near]) /\
  exists inv,
    In inv [scenario_invoice] /\
    invoice_number scenario_proposal = get_invoice_number inv /\
    confidence scenario_proposal =
      if existsb (fun t => is_candidate inv t &&
                           within_week iso_calendar_date
                             (parse_date_field iso_calendar_date
                                (inv_invoice_date inv)) t)
           [txn_far; txn_near]
      then 1%Q else (3 # 5)%Q.
Proof.
  split.
  - vm_compute. left. reflexivity.
  - apply (confidence_is_date_bonus iso_calendar_date).
    vm_compute. left. reflexivity.
Defined.


Lemma nan_never_matches_witness :
  reconcile iso_calendar_date
    [ {| inv_invoice_number := Some "INV-4"%string;
         inv_total := Some NaN;
         inv_invoice_date := DateStr "2024-01-01" |} ]
    [txn_nan; txn_near] = [].
Proof.
  apply (proj2 (nan_never_matches iso_calendar_date _ [txn_nan; txn_near])).
  reflexivity.
Defined.

Lemma missing_amounts_match_witness :
  exists r,
    reconcile iso_calendar_date [invoice_without_total]
      [txn_near; txn_without_amount] = [r] /\
    invoice_number r = get_invoice_number invoice_without_total /\
    exists t', In t' [txn_near; txn_without_amount] /\
               bank_transaction_id r = str_id t' /\
               float_eqb (round2 (get_float (txn_amount t'))) (Finite 0) = true.
Proof.
  apply (missing_amounts_match iso_calendar_date invoice_without_total
           [txn_near; txn_without_amount] txn_without_amount).
  - reflexivity.
  - reflexivity.
  - simpl. right. left. reflexivity.
Defined.

Lemma confidence_ignores_transaction_order_witness :
  map (fun r => (invoice_number r, confidence r))
    (reconcile iso_calendar_date (stored_invoices scenario_store)
       [txn_far; txn_near; txn_other_amount]) =
  map (fun r => (invoice_number r, confidence r))
    (reconcile iso_calendar_date (stored_invoices scenario_store)
       [txn_near; txn_far; txn_other_amount]).
Proof.
  apply (confidence_ignores_transaction_order iso_calendar_date).
  apply perm_swap.
Defined.

Lemma invoice_order_only_reorders_witness :
  Permutation
    (reconcile iso_calendar_date [scenario_invoice; invoice_without_total]
       [txn_near; txn_without_amount])
    (reconcile iso_calendar_date [invoice_without_total; scenario_invoice]
       [txn_near; txn_without_amount]).
Proof.
  apply (invoice_order_only_reorders iso_calendar_date).
  apply perm_swap.
Defined.

Lemma read_failure_is_500_witness :
  match_invoices_to_bank iso_calendar_date unit
    (fun _ _ => inl "connection refused"%string)
    (fun _ _ => inr [txn_near])
    (fun _ _ s => (s, inr "0"%string)) tt =
  (tt, inl {| status_code := 500; detail := "connection refused" |}).
Proof.
  apply (proj1 (read_failure_is_500 iso_calendar_date unit
                  (fun _ _ => inl "connection refused"%string)
                  (fun _ _ => inr [txn_near])
                  (fun _ _ s => (s, inr "0"%string)) tt "connection refused")).
  reflexivity.
Defined.

Lemma success_writes_each_proposal_once_witness :
  let rs := reconcile iso_calendar_date (stored_invoices scenario_store)
              (stored_txns scenario_store) in
  List.length rs = 2%nat /\
  fst (mem_match_invoices_to_bank 5 scenario_store) =
  fold_left (fun st r => fst (mem_create_document 5 "match" r st)) rs scenario_store.
Proof.
  intros rs. split; [ vm_compute; reflexivity | ].
  refine (proj1 (success_writes_each_proposal_once iso_calendar_date mem_store
                   mem_get_invoices mem_get_txns (mem_create_document 5)
                   scenario_store _ rs _)).
  vm_compute. reflexivity.
Defined.

Lemma stringify_id_idempotent_witness :
  stringify_id sample_value sample_str VStr
    (stringify_id sample_value sample_str VStr sample_document) =
  stringify_id sample_value sample_str VStr sample_document.
Proof.
  apply (stringify_id_idempotent sample_value sample_str VStr).
  intros x. reflexivity.
Defined.

Lemma env_reported_set_iff_nonempty_witness :
  database_url
    (test_database unit (fun _ => inr ["invoice"%string]) (fun _ s => s)
       (Some tt) sample_getenv) = Some "✅ Set"%string /\
  database_name
    (test_database unit (fun _ => inr ["invoice"%string]) (fun _ s => s)
       (Some tt) sample_getenv) <> Some "✅ Set"%string.
Proof.
  destruct (proj1 (env_reported_set_iff_nonempty unit
                     (fun _ => inr ["invoice"%string]) (fun _ s => s)
                     (Some tt) sample_getenv) tt eq_refl)
    as (Hurl & Hname & _).
  split.
  - apply Hurl. eexists. split; [ reflexivity | discriminate ].
  - intros H. apply Hname in H. destruct H as (v & Hv & Hne).
    vm_compute in Hv. injection Hv as <-. now apply Hne.
Defined.
